(** * StreamPix-TTS: the [/gerar-audio] handler of [main.py]

    A shallow embedding of [gerar_audio_endpoint] and of the helpers it calls.
    The handler is sequential glue around two external services (the edge-tts
    synthesis client and the Cloudinary uploader) and the local file system,
    with Python's [try / except / finally] deciding what the caller sees.

    - The process state a request can observe or change is a [World]: the
      local files, the trace of calls made to the two providers, and stdout.
      What exists at a path is a file the process can remove or an entry
      [os.remove] refuses (a directory, a protected file).
    - The providers are opaque: their behaviour is an [Env], a pair of
      arbitrary functions that may return or raise and may change the files
      in any way.  Every theorem is quantified over all environments.
    - Python exceptions are a result type, threaded by a state-and-exception
      monad [M]; [try_except_finally] follows Python's rules for the order of
      [except] clauses and for the [finally] block.
    - The diagnostic routes ([health_check], [debug_cloudinary],
      [test_cloudinary]) are embedded in the same monad, over the part of
      the Cloudinary SDK they read. *)

From stdpp Require Import gmap strings list pretty.

Open Scope Z_scope.

(** ** Python values and exceptions *)

(** The values found in the uploader's result dictionary.  [PyOther] stands
    for any value that is neither [None], a [str], an [int] nor a [bool]
    (lists of tags, nested dicts, floats); it carries its [str()] rendering,
    which is all the handler ever asks of such a value. *)
Inductive pyval :=
| PyNone
| PyStr (s : string)
| PyInt (n : Z)
| PyBool (b : bool)
| PyOther (rendering : string).

(** [str(v)], as used by an f-string field. *)
Definition py_str (v : pyval) : string :=
  match v with
  | PyNone => "None"
  | PyStr s => s
  | PyInt n => pretty n
  | PyBool true => "True"
  | PyBool false => "False"
  | PyOther s => s
  end.

(** [d.get(k)]: the value under [k], or [None] when the key is absent. *)
Definition dict_get (d : gmap string pyval) (k : string) : pyval :=
  match d !! k with
  | Some v => v
  | None => PyNone
  end.

(** Exceptions, by the classes the handler's [except] clauses tell apart.
    - [HTTPException]: [fastapi.HTTPException(status_code, detail)];
    - [CloudinaryError]: an instance of [cloudinary.exceptions.Error] or of
      one of its subclasses, with [type(e).__name__] and [str(e)];
    - [OtherException]: any other instance of [Exception];
    - [NonException]: a [BaseException] outside [Exception]
      ([asyncio.CancelledError], [KeyboardInterrupt], ...). *)
Inductive exn :=
| HTTPException (status_code : Z) (detail : string)
| CloudinaryError (type_name message : string)
| OtherException (type_name message : string)
| NonException (type_name message : string).

(** [type(e).__name__] *)
Definition exn_type_name (e : exn) : string :=
  match e with
  | HTTPException _ _ => "HTTPException"
  | CloudinaryError n _ | OtherException n _ | NonException n _ => n
  end.

(** [str(e)]; for [HTTPException] it is ["{status_code}: {detail}"]. *)
Definition exn_str (e : exn) : string :=
  match e with
  | HTTPException c d => pretty c +:+ ": " +:+ d
  | CloudinaryError _ m | OtherException _ m | NonException _ m => m
  end.

(** [isinstance(e, cloudinary.exceptions.Error)] *)
Definition is_cloudinary_Error (e : exn) : bool :=
  match e with
  | CloudinaryError _ _ => true
  | _ => false
  end.

(** [isinstance(e, Exception)]: [HTTPException] and
    [cloudinary.exceptions.Error] both derive from [Exception]. *)
Definition is_Exception (e : exn) : bool :=
  match e with
  | NonException _ _ => false
  | _ => true
  end.

(** ** The world of one request *)

(** A call to one of the two providers, with the arguments it was given. *)
Inductive call :=
| CallSynthesis (text voice file_name : string)
| CallUpload (file_name resource_type public_id : string).

(** What exists at a path.
    - [RegularFile]: a regular file that the process can remove;
    - [Unremovable]: anything else that [os.path.exists] accepts and
      [os.remove] refuses: a directory ([IsADirectoryError]), a file in a
      directory the process may not write ([PermissionError]), ...  It
      carries its size and the class name and text of the [OSError] that
      [os.remove] raises on it. *)
Inductive node :=
| RegularFile (contents : list Byte.byte)
| Unremovable (st_size : Z) (error_class error_text : string).

(** [files w !! p] is what the path string [p] names for this process,
    [None] when [os.path.exists(p)] is false.  Two path strings can name one
    entry (["./a.mp3"] and ["a.mp3"]); the map has one key per string, so
    what is stated below is about one path at a time, never about how two
    different path strings relate. *)
Record World := mkWorld {
  files : gmap string node;  (* local files: what each path names *)
  calls : list call;         (* provider calls, oldest first *)
  stdout : list string;      (* lines printed, oldest first *)
}.

Inductive result (A : Type) :=
| Returned (a : A)
| Raised (e : exn).
Arguments Returned {A} a.
Arguments Raised {A} e.

(** What the providers and the process environment do, seen from the handler.
    Each provider call gets its arguments and the current files, and answers
    with a result or an exception and with the files as it leaves them. *)
Record Env := mkEnv {
  (* os.getenv("API_KEY_APP"): None when the variable is not set *)
  API_KEY_APP : option string;
  (* edge_tts.Communicate(text, voice) followed by .save(file_name) *)
  edge_tts_save :
    string → string → string → gmap string node →
    result unit * gmap string node;
  (* cloudinary.uploader.upload(file_name, resource_type=.., public_id=..) *)
  uploader_upload :
    string → string → string → gmap string node →
    result (gmap string pyval) * gmap string node;
}.

(** ** The state-and-exception monad *)

Definition M (A : Type) : Type := World → result A * World.

Definition ret {A} (a : A) : M A := λ w, (Returned a, w).

Definition raise {A} (e : exn) : M A := λ w, (Raised e, w).

Definition bind {A B} (m : M A) (k : A → M B) : M B :=
  λ w, match m w with
       | (Returned a, w') => k a w'
       | (Raised e, w') => (Raised e, w')
       end.

Notation "'let!' x ':=' m 'in' k" := (bind m (λ x, k))
  (at level 10, x name, m at level 100, k at level 200,
   format "'[v' 'let!'  x  ':='  m  'in' '/' k ']'").

(** One [except C as e: handler] clause: the class test and the handler. *)
Definition except_clause (A : Type) : Type := (exn → bool) * (exn → M A).

(** The first clause whose class matches handles the exception; with no
    match the exception stays in flight. *)
Fixpoint dispatch {A} (clauses : list (except_clause A)) (e : exn) : M A :=
  match clauses with
  | [] => raise e
  | (matches, handler) :: rest =>
      if matches e then handler e else dispatch rest e
  end.

(** [try: body  except ...: ...  finally: final].  The [finally] block runs
    after the body and after whichever handler ran, on every path; the
    outcome is the one pending before it, unless [final] itself raises. *)
Definition try_except_finally {A}
    (body : M A) (clauses : list (except_clause A)) (final : M unit) : M A :=
  λ w,
    let pending :=
      match body w with
      | (Returned a, w1) => (Returned a, w1)
      | (Raised e, w1) => dispatch clauses e w1
      end in
    match final pending.2 with
    | (Returned _, w2) => (pending.1, w2)
    | (Raised e, w2) => (Raised e, w2)
    end.

(** ** Primitives *)

(** [print(line)] *)
Definition print (line : string) : M unit :=
  λ w, (Returned (), mkWorld (files w) (calls w) (stdout w ++ [line])).

(** [os.path.exists(path)] *)
Definition os_path_exists (path : string) : M bool :=
  λ w, (Returned (bool_decide (is_Some (files w !! path))), w).

(** [os.path.getsize(path)]; raises when there is no such file. *)
Definition os_path_getsize (path : string) : M Z :=
  λ w, match files w !! path with
       | Some (RegularFile contents) =>
           (Returned (Z.of_nat (length contents)), w)
       | Some (Unremovable st_size _ _) => (Returned st_size, w)
       | None => (Raised (OtherException "FileNotFoundError" path), w)
       end.

(** [os.remove(path)].  A regular file is removed.  On an entry it cannot
    remove the call raises that entry's [OSError], an [Exception], and the
    entry stays; on a path that names nothing it raises
    [FileNotFoundError]. *)
Definition os_remove (path : string) : M unit :=
  λ w, match files w !! path with
       | Some (RegularFile _) =>
           (Returned (), mkWorld (delete path (files w)) (calls w) (stdout w))
       | Some (Unremovable _ error_class error_text) =>
           (Raised (OtherException error_class error_text), w)
       | None => (Raised (OtherException "FileNotFoundError" path), w)
       end.

(** [d[k]] on a [dict] of strings; raises [KeyError] on a missing key. *)
Definition subscript (d : gmap string string) (k : string) : M string :=
  match d !! k with
  | Some v => ret v
  | None => raise (OtherException "KeyError" ("'" +:+ k +:+ "'"))
  end.

(** ** The program *)

Definition VOZES : gmap string string :=
  <["male" := "pt-BR-AntonioNeural"]>
    (<["female" := "pt-BR-FranciscaNeural"]> ∅).

Record TextRequest := mkTextRequest {
  uuid : string;
  text : string;
  voice_type : string;
}.

Section Handler.

Context (env : Env).

(** [gerar_audio(text, voice_type, file_name)]: builds the edge-tts
    communicator and saves the audio to [file_name]. *)
Definition gerar_audio (text voice_type file_name : string) : M unit :=
  λ w,
    let '(r, fs) := edge_tts_save env text voice_type file_name (files w) in
    (r, mkWorld fs
          (calls w ++ [CallSynthesis text voice_type file_name]) (stdout w)).

(** [cloudinary.uploader.upload(file_name, resource_type=.., public_id=..)] *)
Definition cloudinary_uploader_upload
    (file_name resource_type public_id : string) : M (gmap string pyval) :=
  λ w,
    let '(r, fs) :=
      uploader_upload env file_name resource_type public_id (files w) in
    (r, mkWorld fs
          (calls w ++ [CallUpload file_name resource_type public_id])
          (stdout w)).

(** The body of the [try] block (lines 60 to 83). *)
Definition try_body (dados : TextRequest) (file_name : string) : M pyval :=
  let! voz := subscript VOZES (voice_type dados) in
  let! _ := gerar_audio (text dados) voz file_name in
  let! exists_ := os_path_exists file_name in
  if negb exists_
  then raise (HTTPException 500 "Arquivo de áudio não foi gerado.")
  else
    let! _ := print ("Iniciando upload do arquivo: " +:+ file_name) in
    let! _ := print ("UUID: " +:+ uuid dados) in
    let! upload_result :=
      cloudinary_uploader_upload file_name "video" (uuid dados) in
    let! _ := print "Upload realizado com sucesso!" in
    let! _ :=
      print ("Public ID: " +:+ py_str (dict_get upload_result "public_id")) in
    let! _ :=
      print ("URL: " +:+ py_str (dict_get upload_result "secure_url")) in
    ret (dict_get upload_result "secure_url").

(** [except cloudinary.exceptions.Error as e:] (lines 85 to 95). *)
Definition on_cloudinary_Error (file_name : string) (e : exn) : M pyval :=
  let! _ := print "=== ERRO CLOUDINARY ===" in
  let! _ := print ("Tipo do erro: " +:+ exn_type_name e) in
  let! _ := print ("Mensagem: " +:+ exn_str e) in
  let! _ := print ("Arquivo tentando upload: " +:+ file_name) in
  let! exists_ := os_path_exists file_name in
  let! _ := print ("Arquivo existe: " +:+ py_str (PyBool exists_)) in
  let! still_exists := os_path_exists file_name in
  let! _ :=
    if still_exists
    then
      let! size := os_path_getsize file_name in
      print ("Tamanho do arquivo: " +:+ pretty size +:+ " bytes")
    else ret () in
  let! _ := print "=== FIM ERRO ===" in
  raise (HTTPException 500 ("Erro no upload: " +:+ exn_str e)).

(** [except Exception as e:] (lines 97 to 100). *)
Definition on_Exception (e : exn) : M pyval :=
  let! _ := print ("Erro geral: " +:+ exn_str e) in
  raise (HTTPException 500 "Erro interno do servidor").

(** [finally:] (lines 102 to 105). *)
Definition cleanup (file_name : string) : M unit :=
  let! exists_ := os_path_exists file_name in
  if exists_ then os_remove file_name else ret ().

(** [gerar_audio_endpoint(dados, key)], the handler of [POST /gerar-audio]. *)
Definition gerar_audio_endpoint (dados : TextRequest) (key : string) : M pyval :=
  if bool_decide (Some key ≠ API_KEY_APP env)
  then raise (HTTPException 401 "Chave inválida!")
  else if bool_decide (voice_type dados ∉ dom VOZES)
  then raise (HTTPException 400 "Voz inválida. Use 'male' ou 'female'.")
  else
    let file_name := uuid dados +:+ ".mp3" in
    try_except_finally
      (try_body dados file_name)
      [ (is_cloudinary_Error, on_cloudinary_Error file_name);
        (is_Exception, on_Exception) ]
      (cleanup file_name).

End Handler.

(** ** The HTTP response *)

(** What the client receives.  The route is declared with
    [response_class=PlainTextResponse] (line 47) and the default status. *)
Inductive http_response :=
| PlainText (status : Z) (body : string)     (* text/plain *)
| JsonDetail (status : Z) (detail : string)  (* application/json: {"detail": ..} *)
| ServerFault.                               (* the framework's own failure path *)

(** The framework's treatment of the handler's outcome: a returned [str] is
    the plain-text body, [None] renders as the empty body, and an
    [HTTPException] becomes its status code with the detail in a JSON
    object.  Anything else is left to the framework's failure path. *)
Definition respond (r : result pyval) : http_response :=
  match r with
  | Returned (PyStr s) => PlainText 200 s
  | Returned PyNone => PlainText 200 ""
  | Returned _ => ServerFault
  | Raised (HTTPException c d) => JsonDetail c d
  | Raised _ => ServerFault
  end.

(** The voices the synthesis provider was asked for, in order. *)
Definition synthesis_voices (cs : list call) : list string :=
  omap (λ c, match c with
             | CallSynthesis _ voice _ => Some voice
             | CallUpload _ _ _ => None
             end) cs.

(** The world once [path] has been removed from the local files. *)
Definition wipe (path : string) (w : World) : World :=
  mkWorld (delete path (files w)) (calls w) (stdout w).

(** Whether the [finally] block can leave nothing at a path that holds
    [o]: the path names nothing, or a file [os.remove] removes. *)
Definition clearable (o : option node) : bool :=
  match o with
  | Some (Unremovable _ _ _) => false
  | _ => true
  end.

(** The outcome pending when the [finally] block starts: what the [try]
    body returned, or what the [except] clauses made of what it raised. *)
Definition pending_outcome (env : Env) (dados : TextRequest) (w : World) :
    result pyval * World :=
  match try_body env dados (uuid dados +:+ ".mp3") w with
  | (Returned a, w1) => (Returned a, w1)
  | (Raised e, w1) =>
      dispatch [ (is_cloudinary_Error,
                  on_cloudinary_Error (uuid dados +:+ ".mp3"));
                 (is_Exception, on_Exception) ] e w1
  end.

(** Writing [contents] to [path]: a new regular file, or the new contents
    of what is there; a protected file stays protected. *)
Definition write_file (path : string) (contents : list Byte.byte)
    (fs : gmap string node) : gmap string node :=
  match fs !! path with
  | Some (Unremovable _ error_class error_text) =>
      <[path := Unremovable (Z.of_nat (length contents))
                  error_class error_text]> fs
  | _ => <[path := RegularFile contents]> fs
  end.

(** ** Sample environments

    [sample_env] is the end-to-end scenario: the configured key is
    ["secret123"], synthesis writes the file and the upload answers with a
    public id and a secure URL.  The others change one provider each. *)

Definition sample_upload_result (public_id : string) : gmap string pyval :=
  <["public_id" := PyStr public_id]>
    (<["secure_url" :=
         PyStr "https://res.cloudinary.com/demo/video/upload/abc-1.mp3"]> ∅).

Definition sample_env : Env :=
  mkEnv (Some "secret123")
    (λ _ _ file_name fs,
       (Returned (), write_file file_name [Byte.x49; Byte.x44; Byte.x33] fs))
    (λ _ _ public_id fs, (Returned (sample_upload_result public_id), fs)).

(** Synthesis reports success and writes nothing. *)
Definition silent_synthesis_env : Env :=
  mkEnv (Some "secret123")
    (λ _ _ _ fs, (Returned (), fs))
    (uploader_upload sample_env).

(** The upload is refused by the provider. *)
Definition failing_upload_env : Env :=
  mkEnv (Some "secret123")
    (edge_tts_save sample_env)
    (λ _ _ _ fs, (Raised (CloudinaryError "AuthorizationRequired" "Invalid Signature"), fs)).

(** The upload answers with a result that has no ["secure_url"]. *)
Definition no_url_env : Env :=
  mkEnv (Some "secret123")
    (edge_tts_save sample_env)
    (λ _ _ public_id fs, (Returned (<["public_id" := PyStr public_id]> ∅), fs)).

(** No access key in the process environment. *)
Definition keyless_env : Env :=
  mkEnv None (edge_tts_save sample_env) (uploader_upload sample_env).

Definition sample_request : TextRequest :=
  mkTextRequest "abc-1" "Olá mundo" "female".

(** A request for a voice the registry does not have. *)
Definition robot_request : TextRequest :=
  mkTextRequest "abc-1" "Olá mundo" "robot".

Definition male_request : TextRequest :=
  mkTextRequest "abc-2" "Bom dia" "male".

Definition empty_world : World := mkWorld ∅ [] [].

(** The files once [sample_env]'s synthesis has written [abc-1.mp3]. *)
Definition sample_files : gmap string node :=
  <["abc-1.mp3" := RegularFile [Byte.x49; Byte.x44; Byte.x33]]> ∅.

(** A world in which a stale [abc-1.mp3] is already present. *)
Definition stale_world : World :=
  mkWorld (<["abc-1.mp3" := RegularFile [Byte.x00]]> ∅) [] [].

(** ** The diagnostic routes

    [health_check], [debug_cloudinary] and [test_cloudinary] answer with a
    [dict], which the framework sends as JSON.  They read the Cloudinary
    SDK's configuration and, for [debug_cloudinary], build one URL with
    it. *)

(** The JSON values these routes answer with; an object keeps the order of
    its keys, as a Python [dict] does. *)
#[warnings="-register-all"] Inductive json :=
| JNull
| JBool (b : bool)
| JInt (n : Z)
| JStr (s : string)
| JObj (fields : list (string * json)).

(** An [Optional[str]] as a JSON value. *)
Definition json_of_optional (o : option string) : json :=
  match o with
  | Some s => JStr s
  | None => JNull
  end.

(** A byte of the form [10xxxxxx], which continues a UTF-8 character. *)
Definition is_continuation_byte (a : Ascii.ascii) : bool :=
  match a with
  | Ascii.Ascii _ _ _ _ _ _ false true => true
  | _ => false
  end.

(** [len(s)] for a [str]: the number of characters.  Strings are held as
    their UTF-8 bytes, so this counts the bytes that start a character. *)
Fixpoint py_len (s : string) : Z :=
  match s with
  | EmptyString => 0
  | String a rest => (if is_continuation_byte a then 0 else 1) + py_len rest
  end.

(** The truth value of an [Optional[str]]: [None] and [""] are false. *)
Definition truthy (o : option string) : bool :=
  match o with
  | Some (String _ _) => true
  | _ => false
  end.

(** The attributes of the object [cloudinary.config()] returns that the
    routes read.  The first three come from [os.getenv] (lines 17 to 21);
    [secure] is whatever the SDK holds. *)
Record Config := mkConfig {
  cloud_name : option string;
  api_key : option string;
  api_secret : option string;
  secure : json;
}.

(** The SDK, seen from the diagnostic routes. *)
Record Sdk := mkSdk {
  (* cloudinary.config() *)
  cloudinary_config : result Config;
  (* cloudinary.utils.cloudinary_url(source): a tuple *)
  cloudinary_url : string → result (list json);
}.

(** A [try] statement with [except] clauses and no [finally]. *)
Definition try_except {A} (body : M A) (clauses : list (except_clause A)) : M A :=
  try_except_finally body clauses (ret ()).

(** [len(config.api_secret) if config.api_secret else 0] *)
Definition api_secret_length (config : Config) : Z :=
  if truthy (api_secret config)
  then match api_secret config with
       | Some s => py_len s
       | None => 0
       end
  else 0.

(** [health_check()] *)
Definition health_check : M json :=
  ret (JObj [ ("status", JStr "OK");
              ("message", JStr "TTS API está funcionando") ]).

Section Diagnostics.

Context (sdk : Sdk).

(** A call into the SDK that leaves the world as it is. *)
Definition sdk_call {A} (r : result A) : M A := λ w, (r, w).

(** [debug_cloudinary()] *)
Definition debug_cloudinary : M json :=
  try_except
    (let! config := sdk_call (cloudinary_config sdk) in
     let! test_url := sdk_call (cloudinary_url sdk "sample.jpg") in
     ret (JObj
       [ ("status", JStr "OK");
         ("config", JObj
            [ ("cloud_name", json_of_optional (cloud_name config));
              ("api_key", json_of_optional (api_key config));
              ("api_secret_length", JInt (api_secret_length config));
              ("secure", secure config) ]);
         ("test_url", match test_url with
                      | first :: _ => first
                      | [] => JNull
                      end) ]))
    [ (is_Exception, λ e,
         ret (JObj [ ("status", JStr "ERROR");
                     ("error", JStr (exn_str e));
                     ("type", JStr (exn_type_name e)) ])) ].

(** [test_cloudinary()] *)
Definition test_cloudinary : M json :=
  try_except
    (let! config := sdk_call (cloudinary_config sdk) in
     ret (JObj
       [ ("status", JStr "OK");
         ("cloud_name", json_of_optional (cloud_name config));
         ("api_key", json_of_optional (api_key config));
         ("api_secret_configured", JBool (truthy (api_secret config)));
         ("api_secret_length", JInt (api_secret_length config)) ]))
    [ (is_Exception, λ e,
         ret (JObj [ ("status", JStr "ERROR");
                     ("error", JStr (exn_str e)) ])) ].

End Diagnostics.

(** ** More sample environments *)

(** The request is cancelled while synthesis is awaited. *)
Definition cancelled_synthesis_env : Env :=
  mkEnv (Some "secret123")
    (λ _ _ _ fs, (Raised (NonException "CancelledError" ""), fs))
    (uploader_upload sample_env).


(** The upload fails outside the provider's own error classes. *)
Definition broken_upload_env : Env :=
  mkEnv (Some "secret123")
    (edge_tts_save sample_env)
    (λ _ _ _ fs, (Raised (OtherException "ConnectionError" "Connection reset"), fs)).

(** The request is cancelled during the upload. *)
Definition cancelled_upload_env : Env :=
  mkEnv (Some "secret123")
    (edge_tts_save sample_env)
    (λ _ _ _ fs, (Raised (NonException "KeyboardInterrupt" ""), fs)).

(** A stale [abc-1.mp3] that the process can write and cannot remove: the
    working directory is not writable. *)
Definition protected_files : gmap string node :=
  <["abc-1.mp3" :=
      Unremovable 1 "PermissionError"
        "[Errno 13] Permission denied: 'abc-1.mp3'"]> ∅.

Definition protected_world : World := mkWorld protected_files [] [].

(** The same file once [sample_env]'s synthesis has rewritten it. *)
Definition protected_files_written : gmap string node :=
  <["abc-1.mp3" :=
      Unremovable 3 "PermissionError"
        "[Errno 13] Permission denied: 'abc-1.mp3'"]> ∅.

(** A directory sits where the audio file should go. *)
Definition directory_world : World :=
  mkWorld
    (<["abc-1.mp3" :=
         Unremovable 4096 "IsADirectoryError"
           "[Errno 21] Is a directory: 'abc-1.mp3'"]> ∅) [] [].

(** Synthesis cannot open its output file: the path is a directory. *)
Definition directory_synthesis_env : Env :=
  mkEnv (Some "secret123")
    (λ _ _ _ fs,
       (Raised (OtherException "IsADirectoryError"
                  "[Errno 21] Is a directory: 'abc-1.mp3'"), fs))
    (uploader_upload sample_env).

Definition sample_config : Config :=
  mkConfig (Some "demo") (Some "123456") (Some "s3cr3t") (JBool true).

(** The same account with another secret of the same length. *)
Definition rotated_config : Config :=
  mkConfig (Some "demo") (Some "123456") (Some "t0ps3c") (JBool true).

Definition sample_sdk : Sdk :=
  mkSdk (Returned sample_config)
    (λ source,
       Returned [ JStr ("https://res.cloudinary.com/demo/image/upload/" +:+ source);
                  JObj [] ]).

(** No cloud name is configured: building a URL fails. *)
Definition unconfigured_sdk : Sdk :=
  mkSdk (Returned (mkConfig None None None JNull))
    (λ _, Raised (OtherException "ValueError"
                    "Must supply cloud_name in tag or in configuration")).

(** The request is cancelled while the configuration is read. *)
Definition cancelled_sdk : Sdk :=
  mkSdk (Raised (NonException "CancelledError" "")) (cloudinary_url sample_sdk).

(** Reading the configuration itself fails. *)
Definition broken_sdk : Sdk :=
  mkSdk (Raised (OtherException "RuntimeError" "configuration unavailable"))
    (cloudinary_url sample_sdk).

(** * Properties *)

(** ** The voice registry *)

Lemma VOZES_male : VOZES !! "male" = Some "pt-BR-AntonioNeural".
Proof. reflexivity. Qed.

Lemma VOZES_female : VOZES !! "female" = Some "pt-BR-FranciscaNeural".
Proof. unfold VOZES. rewrite lookup_insert_ne by done. apply lookup_insert_eq. Qed.

Lemma VOZES_other (v : string) :
  v ≠ "male" → v ≠ "female" → VOZES !! v = None.
Proof.
  intros Hm Hf. unfold VOZES.
  rewrite !lookup_insert_ne by done. apply lookup_empty.
Qed.

Lemma in_VOZES (v : string) :
  v ∈ dom VOZES ↔ v = "male" ∨ v = "female".
Proof.
  rewrite elem_of_dom. split.
  - intros Hv.
    destruct (decide (v = "male")) as [|Hm]; [by left|].
    destruct (decide (v = "female")) as [|Hf]; [by right|].
    rewrite VOZES_other in Hv by done. by destruct Hv.
  - intros [-> | ->]; [rewrite VOZES_male | rewrite VOZES_female]; eauto.
Qed.

Lemma in_VOZES_lookup (v : string) :
  v ∈ dom VOZES → ∃ voz, VOZES !! v = Some voz.
Proof. intros H. by apply elem_of_dom in H. Qed.

(** ** The [finally] block *)

(** The block removes a regular file and passes over a path that names
    nothing; on an entry [os.remove] refuses it raises that entry's error
    and leaves the world as it found it. *)
Lemma cleanup_run (f : string) (w : World) :
  cleanup f w =
    match files w !! f with
    | Some (Unremovable _ error_class error_text) =>
        (Raised (OtherException error_class error_text), w)
    | _ => (Returned (), wipe f w)
    end.
Proof.
  unfold cleanup, bind, os_path_exists, os_remove, ret, wipe.
  destruct (files w !! f) as [[contents|st_size error_class error_text]|]
    eqn:E; simpl.
  - by rewrite E.
  - by rewrite E.
  - destruct w as [fs cs out]; simpl in *. by rewrite delete_id.
Qed.

Lemma try_cleanup_run {A} (body : M A) clauses (f : string) (w : World) :
  try_except_finally body clauses (cleanup f) w =
    let pending :=
      match body w with
      | (Returned a, w1) => (Returned a, w1)
      | (Raised e, w1) => dispatch clauses e w1
      end in
    match files pending.2 !! f with
    | Some (Unremovable _ error_class error_text) =>
        (Raised (OtherException error_class error_text), pending.2)
    | _ => (pending.1, wipe f pending.2)
    end.
Proof.
  unfold try_except_finally. cbv zeta. rewrite cleanup_run.
  by destruct (files _ !! f) as [[|]|].
Qed.

Lemma wipe_files (f : string) (w : World) : files (wipe f w) !! f = None.
Proof. apply lookup_delete_eq. Qed.

(** ** The two guards *)

Lemma endpoint_rejects_key env dados key w :
  Some key ≠ API_KEY_APP env →
  gerar_audio_endpoint env dados key w =
    (Raised (HTTPException 401 "Chave inválida!"), w).
Proof.
  intros Hkey. unfold gerar_audio_endpoint.
  by rewrite bool_decide_true.
Qed.

Lemma endpoint_rejects_voice env dados key w :
  Some key = API_KEY_APP env →
  voice_type dados ∉ dom VOZES →
  gerar_audio_endpoint env dados key w =
    (Raised (HTTPException 400 "Voz inválida. Use 'male' ou 'female'."), w).
Proof.
  intros Hkey Hvoice. unfold gerar_audio_endpoint.
  rewrite bool_decide_false by (by intros []).
  by rewrite bool_decide_true.
Qed.

(** ** The handlers of the two [except] clauses *)

Lemma on_cloudinary_Error_run f e w :
  ∃ lines,
    on_cloudinary_Error f e w =
      (Raised (HTTPException 500 ("Erro no upload: " +:+ exn_str e)),
       mkWorld (files w) (calls w) (stdout w ++ lines)).
Proof.
  unfold on_cloudinary_Error, bind, print, os_path_exists, os_path_getsize,
    raise, ret; simpl.
  destruct (files w !! f) as [[contents|st_size error_class error_text]|]
    eqn:E; simpl.
  - rewrite E; simpl. rewrite <- !(assoc_L (++)). eauto.
  - rewrite E; simpl. rewrite <- !(assoc_L (++)). eauto.
  - rewrite <- !(assoc_L (++)). eauto.
Qed.

Lemma on_Exception_run e w :
  on_Exception e w =
    (Raised (HTTPException 500 "Erro interno do servidor"),
     mkWorld (files w) (calls w) (stdout w ++ ["Erro geral: " +:+ exn_str e])).
Proof. reflexivity. Qed.

(** What the two [except] clauses make of an exception: a Cloudinary error
    becomes the upload failure, any other [Exception] the generic failure,
    and anything else stays in flight.  Neither clause touches the files
    or the providers. *)
Lemma dispatch_run f e w :
  ∃ lines,
    dispatch (A := pyval)
      [ (is_cloudinary_Error, on_cloudinary_Error f);
        (is_Exception, on_Exception) ] e w =
      (Raised
         (if is_cloudinary_Error e
          then HTTPException 500 ("Erro no upload: " +:+ exn_str e)
          else if is_Exception e
          then HTTPException 500 "Erro interno do servidor"
          else e),
       mkWorld (files w) (calls w) (stdout w ++ lines)).
Proof.
  simpl. destruct (is_cloudinary_Error e).
  - apply on_cloudinary_Error_run.
  - destruct (is_Exception e).
    + rewrite on_Exception_run. eauto.
    + exists []. destruct w. unfold raise. simpl. by rewrite app_nil_r.
Qed.

(** ** From the [try] body to the handler's outcome *)

Lemma pending_files env dados w :
  files (pending_outcome env dados w).2 =
    files (try_body env dados (uuid dados +:+ ".mp3") w).2.
Proof.
  unfold pending_outcome.
  destruct (try_body env dados (uuid dados +:+ ".mp3") w) as [[a|e] w1];
    [done|].
  by destruct (dispatch_run (uuid dados +:+ ".mp3") e w1) as [lines ->].
Qed.

Lemma pending_calls env dados w :
  calls (pending_outcome env dados w).2 =
    calls (try_body env dados (uuid dados +:+ ".mp3") w).2.
Proof.
  unfold pending_outcome.
  destruct (try_body env dados (uuid dados +:+ ".mp3") w) as [[a|e] w1];
    [done|].
  by destruct (dispatch_run (uuid dados +:+ ".mp3") e w1) as [lines ->].
Qed.

(** Past the two guards the handler is the pending outcome followed by the
    [finally] block. *)
Lemma endpoint_enters_try env dados key w :
  Some key = API_KEY_APP env →
  voice_type dados ∈ dom VOZES →
  gerar_audio_endpoint env dados key w =
    match files (pending_outcome env dados w).2 !! (uuid dados +:+ ".mp3") with
    | Some (Unremovable _ error_class error_text) =>
        (Raised (OtherException error_class error_text),
         (pending_outcome env dados w).2)
    | _ =>
        ((pending_outcome env dados w).1,
         wipe (uuid dados +:+ ".mp3") (pending_outcome env dados w).2)
    end.
Proof.
  intros Hkey Hvoice. unfold gerar_audio_endpoint.
  rewrite bool_decide_false by (by intros []).
  rewrite bool_decide_false by (by intros []).
  apply try_cleanup_run.
Qed.

(** When the [finally] block can clear the path, the pending outcome is
    the handler's, and the path names nothing afterwards. *)
Lemma endpoint_clears env dados key w :
  Some key = API_KEY_APP env →
  voice_type dados ∈ dom VOZES →
  clearable (files (try_body env dados (uuid dados +:+ ".mp3") w).2
               !! (uuid dados +:+ ".mp3")) = true →
  gerar_audio_endpoint env dados key w =
    ((pending_outcome env dados w).1,
     wipe (uuid dados +:+ ".mp3") (pending_outcome env dados w).2).
Proof.
  intros Hkey Hvoice Hclear.
  rewrite endpoint_enters_try by done.
  rewrite <- pending_files in Hclear.
  by destruct (files (pending_outcome env dados w).2 !! _) as [[|]|].
Qed.

(** When it cannot, the error of [os.remove] replaces the pending outcome
    and the world stays as the [except] clauses left it. *)
Lemma endpoint_stuck env dados key w st_size error_class error_text :
  Some key = API_KEY_APP env →
  voice_type dados ∈ dom VOZES →
  files (try_body env dados (uuid dados +:+ ".mp3") w).2
    !! (uuid dados +:+ ".mp3") =
    Some (Unremovable st_size error_class error_text) →
  gerar_audio_endpoint env dados key w =
    (Raised (OtherException error_class error_text),
     (pending_outcome env dados w).2).
Proof.
  intros Hkey Hvoice Hstuck.
  rewrite endpoint_enters_try by done.
  rewrite <- pending_files in Hstuck. by rewrite Hstuck.
Qed.

(** The [finally] block calls no provider: the calls of a request that
    entered the [try] block are those of the [try] body. *)
Lemma endpoint_calls_body env dados key w :
  Some key = API_KEY_APP env →
  voice_type dados ∈ dom VOZES →
  calls (gerar_audio_endpoint env dados key w).2 =
    calls (try_body env dados (uuid dados +:+ ".mp3") w).2.
Proof.
  intros Hkey Hvoice.
  rewrite endpoint_enters_try by done.
  rewrite <- pending_calls.
  by destruct (files (pending_outcome env dados w).2 !! _) as [[|]|].
Qed.

(** ** The three ways through the [try] body *)

Section TryBody.

Context (env : Env) (dados : TextRequest) (f voz : string) (w : World).
Hypothesis Hvoz : VOZES !! voice_type dados = Some voz.

Lemma try_body_synthesis_raises e fs1 :
  edge_tts_save env (text dados) voz f (files w) = (Raised e, fs1) →
  try_body env dados f w =
    (Raised e, mkWorld fs1 (calls w ++ [CallSynthesis (text dados) voz f]) (stdout w)).
Proof.
  intros Hsave. unfold try_body, subscript, bind, ret, gerar_audio.
  by rewrite Hvoz, Hsave.
Qed.

Lemma try_body_no_file u fs1 :
  edge_tts_save env (text dados) voz f (files w) = (Returned u, fs1) →
  fs1 !! f = None →
  try_body env dados f w =
    (Raised (HTTPException 500 "Arquivo de áudio não foi gerado."),
     mkWorld fs1 (calls w ++ [CallSynthesis (text dados) voz f]) (stdout w)).
Proof.
  intros Hsave Hnone.
  unfold try_body, subscript, bind, ret, gerar_audio, os_path_exists.
  rewrite Hvoz, Hsave; simpl. by rewrite Hnone.
Qed.

Lemma try_body_upload_raises u fs1 e fs2 :
  edge_tts_save env (text dados) voz f (files w) = (Returned u, fs1) →
  is_Some (fs1 !! f) →
  uploader_upload env f "video" (uuid dados) fs1 = (Raised e, fs2) →
  ∃ lines,
    try_body env dados f w =
      (Raised e,
       mkWorld fs2
         (calls w ++
          [CallSynthesis (text dados) voz f; CallUpload f "video" (uuid dados)])
         (stdout w ++ lines)).
Proof.
  intros Hsave [contents Hsome] Hup.
  unfold try_body, subscript, bind, ret, gerar_audio, os_path_exists,
    cloudinary_uploader_upload, print.
  rewrite Hvoz, Hsave; simpl. rewrite Hsome; simpl. rewrite Hup.
  rewrite <- !(assoc_L (++)). eauto.
Qed.

Lemma try_body_upload_returns u fs1 upload_result fs2 :
  edge_tts_save env (text dados) voz f (files w) = (Returned u, fs1) →
  is_Some (fs1 !! f) →
  uploader_upload env f "video" (uuid dados) fs1 =
    (Returned upload_result, fs2) →
  ∃ lines,
    try_body env dados f w =
      (Returned (dict_get upload_result "secure_url"),
       mkWorld fs2
         (calls w ++
          [CallSynthesis (text dados) voz f; CallUpload f "video" (uuid dados)])
         (stdout w ++ lines)).
Proof.
  intros Hsave [contents Hsome] Hup.
  unfold try_body, subscript, bind, ret, gerar_audio, os_path_exists,
    cloudinary_uploader_upload, print.
  rewrite Hvoz, Hsave; simpl. rewrite Hsome; simpl. rewrite Hup; simpl.
  rewrite <- !(assoc_L (++)). eauto.
Qed.

End TryBody.

(** ** The provider calls of an authorised request *)

Lemma synthesis_voices_app (cs1 cs2 : list call) :
  synthesis_voices (cs1 ++ cs2) = synthesis_voices cs1 ++ synthesis_voices cs2.
Proof. apply omap_app. Qed.

Lemma synthesis_voices_synthesis t v f (cs : list call) :
  synthesis_voices (CallSynthesis t v f :: cs) = v :: synthesis_voices cs.
Proof. reflexivity. Qed.

(** Whatever the providers do, a request that enters the [try] block makes
    one synthesis call, with the registry's voice, and at most one upload
    call after it. *)
Lemma endpoint_calls env dados key w voz :
  Some key = API_KEY_APP env →
  VOZES !! voice_type dados = Some voz →
  ∃ uploads,
    calls (gerar_audio_endpoint env dados key w).2 =
      calls w ++
      CallSynthesis (text dados) voz (uuid dados +:+ ".mp3") :: uploads ∧
    synthesis_voices uploads = [].
Proof.
  intros Hkey Hvoz.
  rewrite endpoint_calls_body by (by rewrite ?elem_of_dom, ?Hvoz).
  set (f := uuid dados +:+ ".mp3").
  destruct (edge_tts_save env (text dados) voz f (files w))
    as [[u|e] fs1] eqn:Hsave.
  - destruct (fs1 !! f) as [present|] eqn:Hfile.
    + destruct (uploader_upload env f "video" (uuid dados) fs1)
        as [[upload_result|e] fs2] eqn:Hup.
      * destruct (try_body_upload_returns env dados f voz w Hvoz
                    u fs1 upload_result fs2 Hsave (mk_is_Some _ _ Hfile) Hup)
          as [lines ->].
        by exists [CallUpload f "video" (uuid dados)].
      * destruct (try_body_upload_raises env dados f voz w Hvoz
                    u fs1 e fs2 Hsave (mk_is_Some _ _ Hfile) Hup)
          as [lines ->].
        by exists [CallUpload f "video" (uuid dados)].
    + rewrite (try_body_no_file env dados f voz w Hvoz u fs1) by done.
      by exists [].
  - rewrite (try_body_synthesis_raises env dados f voz w Hvoz e fs1) by done.
    by exists [].
Qed.

(** * The claims *)

(** C1, as amended.  For every request that passes the key and voice
    checks, if what the path ["{uuid}.mp3"] names when the [try] block ends
    is nothing or a file [os.remove] can remove, then once the handler has
    returned or raised the path names nothing: whatever the synthesis and
    upload providers returned or raised, the [finally] block has removed
    the file. *)
Theorem temp_file_removed_when_removable env dados key w :
  Some key = API_KEY_APP env →
  voice_type dados ∈ dom VOZES →
  clearable (files (try_body env dados (uuid dados +:+ ".mp3") w).2
               !! (uuid dados +:+ ".mp3")) = true →
  files (gerar_audio_endpoint env dados key w).2 !! (uuid dados +:+ ".mp3")
    = None.
Proof.
  intros Hkey Hvoice Hclear.
  rewrite endpoint_clears by done.
  apply wipe_files.
Qed.

(** C2. When the supplied key differs from the configured access key the
    handler raises [HTTPException] with status 401, which the client sees as
    a 401 response, and the trace of provider calls is unchanged: neither
    synthesis nor upload was invoked. *)
Theorem wrong_key_is_401_without_calls env dados key w :
  Some key ≠ API_KEY_APP env →
  (gerar_audio_endpoint env dados key w).1 =
    Raised (HTTPException 401 "Chave inválida!") ∧
  respond (gerar_audio_endpoint env dados key w).1 =
    JsonDetail 401 "Chave inválida!" ∧
  calls (gerar_audio_endpoint env dados key w).2 = calls w.
Proof.
  intros Hkey. by rewrite endpoint_rejects_key.
Qed.

(** C3, as amended.  When the supplied key matches and [voice_type] is
    neither ["male"] nor ["female"], the handler raises [HTTPException] with
    status 400 and the trace of provider calls is unchanged. *)
Theorem invalid_voice_is_400_without_calls env dados key w :
  Some key = API_KEY_APP env →
  voice_type dados ≠ "male" →
  voice_type dados ≠ "female" →
  (gerar_audio_endpoint env dados key w).1 =
    Raised (HTTPException 400 "Voz inválida. Use 'male' ou 'female'.") ∧
  respond (gerar_audio_endpoint env dados key w).1 =
    JsonDetail 400 "Voz inválida. Use 'male' ou 'female'." ∧
  calls (gerar_audio_endpoint env dados key w).2 = calls w.
Proof.
  intros Hkey Hm Hf.
  rewrite endpoint_rejects_voice; [done..|].
  rewrite in_VOZES. by intros [|].
Qed.

(** C4. Authorisation comes first: with a wrong key and an invalid voice
    the handler raises status 401, not 400. *)
Theorem wrong_key_wins_over_invalid_voice env dados key w :
  Some key ≠ API_KEY_APP env →
  voice_type dados ≠ "male" →
  voice_type dados ≠ "female" →
  (gerar_audio_endpoint env dados key w).1 =
    Raised (HTTPException 401 "Chave inválida!") ∧
  ∀ detail,
    (gerar_audio_endpoint env dados key w).1 ≠
      Raised (HTTPException 400 detail).
Proof.
  intros Hkey _ _. by rewrite endpoint_rejects_key.
Qed.

(** C5. With a valid key, a request for ["male"] has the synthesis provider
    called with ["pt-BR-AntonioNeural"] and a request for ["female"] with
    ["pt-BR-FranciscaNeural"]: the synthesis call the run adds to the trace
    carries that voice, the text and the file name, it is the only synthesis
    call added, and its voice is not the raw selector. *)
Theorem synthesis_gets_registry_voice env dados key w voz :
  Some key = API_KEY_APP env →
  voice_type dados = "male" ∧ voz = "pt-BR-AntonioNeural" ∨
  voice_type dados = "female" ∧ voz = "pt-BR-FranciscaNeural" →
  (∃ uploads,
     calls (gerar_audio_endpoint env dados key w).2 =
       calls w ++
       CallSynthesis (text dados) voz (uuid dados +:+ ".mp3") :: uploads) ∧
  synthesis_voices (calls (gerar_audio_endpoint env dados key w).2) =
    synthesis_voices (calls w) ++ [voz] ∧
  voz ≠ voice_type dados.
Proof.
  intros Hkey Hvoice.
  assert (Hvoz : VOZES !! voice_type dados = Some voz).
  { destruct Hvoice as [[-> ->] | [-> ->]];
      [apply VOZES_male | apply VOZES_female]. }
  destruct (endpoint_calls env dados key w voz Hkey Hvoz)
    as (uploads & Hcalls & Hnone).
  split; [eauto|]. split.
  - rewrite Hcalls, synthesis_voices_app, synthesis_voices_synthesis.
    by rewrite Hnone.
  - by destruct Hvoice as [[-> ->] | [-> ->]].
Qed.

(** C6, what the code does.  With a valid key and voice, when synthesis
    returns without error and the file ["{uuid}.mp3"] is absent afterwards,
    the [try] body raises status 500 with the detail
    ["Arquivo de áudio não foi gerado."] (lemma [try_body_no_file]), but that
    [HTTPException] is an [Exception], so the catch-all clause replaces it:
    the handler raises status 500 with the generic detail
    ["Erro interno do servidor"].  The upload is not invoked: the only call
    added to the trace is the synthesis call. *)
Theorem missing_audio_detail_is_generic env dados key w voz u fs1 :
  Some key = API_KEY_APP env →
  VOZES !! voice_type dados = Some voz →
  edge_tts_save env (text dados) voz (uuid dados +:+ ".mp3") (files w) =
    (Returned u, fs1) →
  fs1 !! (uuid dados +:+ ".mp3") = None →
  (gerar_audio_endpoint env dados key w).1 =
    Raised (HTTPException 500 "Erro interno do servidor") ∧
  (gerar_audio_endpoint env dados key w).1 ≠
    Raised (HTTPException 500 "Arquivo de áudio não foi gerado.") ∧
  calls (gerar_audio_endpoint env dados key w).2 =
    calls w ++ [CallSynthesis (text dados) voz (uuid dados +:+ ".mp3")].
Proof.
  intros Hkey Hvoz Hsave Hfile.
  pose proof (try_body_no_file env dados _ voz w Hvoz u fs1 Hsave Hfile)
    as Hbody.
  rewrite endpoint_clears;
    [|done|by rewrite ?elem_of_dom, ?Hvoz|by rewrite Hbody; simpl; rewrite Hfile].
  unfold pending_outcome. by rewrite Hbody.
Qed.

(** C7, as amended.  When the upload call raises a Cloudinary error, and
    what it leaves at ["{uuid}.mp3"] is nothing or a file [os.remove] can
    remove, the handler raises status 500 with detail ["Erro no upload: "]
    followed by the provider's error text, and the path names nothing when
    the handler is done. *)
Theorem upload_error_is_500_then_file_removed
    env dados key w voz u fs1 type_name message fs2 :
  Some key = API_KEY_APP env →
  VOZES !! voice_type dados = Some voz →
  edge_tts_save env (text dados) voz (uuid dados +:+ ".mp3") (files w) =
    (Returned u, fs1) →
  is_Some (fs1 !! (uuid dados +:+ ".mp3")) →
  uploader_upload env (uuid dados +:+ ".mp3") "video" (uuid dados) fs1 =
    (Raised (CloudinaryError type_name message), fs2) →
  clearable (fs2 !! (uuid dados +:+ ".mp3")) = true →
  (gerar_audio_endpoint env dados key w).1 =
    Raised (HTTPException 500 ("Erro no upload: " +:+ message)) ∧
  respond (gerar_audio_endpoint env dados key w).1 =
    JsonDetail 500 ("Erro no upload: " +:+ message) ∧
  files (gerar_audio_endpoint env dados key w).2 !! (uuid dados +:+ ".mp3")
    = None.
Proof.
  intros Hkey Hvoz Hsave Hfile Hup Hclear.
  destruct (try_body_upload_raises env dados _ voz w Hvoz u fs1 _ fs2
              Hsave Hfile Hup) as [lines Hbody].
  rewrite endpoint_clears;
    [|done|by rewrite ?elem_of_dom, ?Hvoz|by rewrite Hbody].
  unfold pending_outcome. rewrite Hbody. simpl.
  destruct (on_cloudinary_Error_run (uuid dados +:+ ".mp3")
              (CloudinaryError type_name message)
              (mkWorld fs2
                 (calls w ++
                  [CallSynthesis (text dados) voz (uuid dados +:+ ".mp3");
                   CallUpload (uuid dados +:+ ".mp3") "video" (uuid dados)])
                 (stdout w ++ lines))) as [lines' ->]; simpl.
  split_and!; [done..|]. apply lookup_delete_eq.
Qed.

(** C8, as amended.  With a matching key and a valid voice, when synthesis
    produces the file, the upload returns a result whose ["secure_url"] is
    the string [url], and what the upload leaves at ["{uuid}.mp3"] is
    nothing or a file [os.remove] can remove, the handler returns [url],
    and the client receives status 200 with the plain-text body [url]
    itself. *)
Theorem success_is_200_when_file_removable
    env dados key w voz u fs1 upload_result fs2 url :
  Some key = API_KEY_APP env →
  VOZES !! voice_type dados = Some voz →
  edge_tts_save env (text dados) voz (uuid dados +:+ ".mp3") (files w) =
    (Returned u, fs1) →
  is_Some (fs1 !! (uuid dados +:+ ".mp3")) →
  uploader_upload env (uuid dados +:+ ".mp3") "video" (uuid dados) fs1 =
    (Returned upload_result, fs2) →
  upload_result !! "secure_url" = Some (PyStr url) →
  clearable (fs2 !! (uuid dados +:+ ".mp3")) = true →
  (gerar_audio_endpoint env dados key w).1 = Returned (PyStr url) ∧
  respond (gerar_audio_endpoint env dados key w).1 = PlainText 200 url.
Proof.
  intros Hkey Hvoz Hsave Hfile Hup Hurl Hclear.
  destruct (try_body_upload_returns env dados _ voz w Hvoz u fs1 _ fs2
              Hsave Hfile Hup) as [lines Hbody].
  rewrite endpoint_clears;
    [|done|by rewrite ?elem_of_dom, ?Hvoz|by rewrite Hbody].
  unfold pending_outcome. rewrite Hbody. simpl.
  unfold dict_get. by rewrite Hurl.
Qed.

(** C9. When no access key is configured ([API_KEY_APP] is [None]), every
    request, whatever key it supplies, is answered with status 401. *)
Theorem no_configured_key_is_always_401 env dados key w :
  API_KEY_APP env = None →
  (gerar_audio_endpoint env dados key w).1 =
    Raised (HTTPException 401 "Chave inválida!") ∧
  respond (gerar_audio_endpoint env dados key w).1 =
    JsonDetail 401 "Chave inválida!".
Proof.
  intros Hnone. rewrite endpoint_rejects_key; [done|].
  by rewrite Hnone.
Qed.

(** C10, as amended.  When the upload succeeds with a result that has no
    ["secure_url"] key, and what it leaves at ["{uuid}.mp3"] is nothing or a
    file [os.remove] can remove, the handler does not raise: it returns
    [None]. *)
Theorem missing_secure_url_returns_None_when_file_removable
    env dados key w voz u fs1 upload_result fs2 :
  Some key = API_KEY_APP env →
  VOZES !! voice_type dados = Some voz →
  edge_tts_save env (text dados) voz (uuid dados +:+ ".mp3") (files w) =
    (Returned u, fs1) →
  is_Some (fs1 !! (uuid dados +:+ ".mp3")) →
  uploader_upload env (uuid dados +:+ ".mp3") "video" (uuid dados) fs1 =
    (Returned upload_result, fs2) →
  upload_result !! "secure_url" = None →
  clearable (fs2 !! (uuid dados +:+ ".mp3")) = true →
  (gerar_audio_endpoint env dados key w).1 = Returned PyNone.
Proof.
  intros Hkey Hvoz Hsave Hfile Hup Hurl Hclear.
  destruct (try_body_upload_returns env dados _ voz w Hvoz u fs1 _ fs2
              Hsave Hfile Hup) as [lines Hbody].
  rewrite endpoint_clears;
    [|done|by rewrite ?elem_of_dom, ?Hvoz|by rewrite Hbody].
  unfold pending_outcome. rewrite Hbody. simpl.
  unfold dict_get. by rewrite Hurl.
Qed.

(** * Beyond the claims: the other paths of the handler *)


(** X2. When the upload raises an [Exception] outside Cloudinary's own
    error classes, and what it leaves at ["{uuid}.mp3"] is nothing or a
    file [os.remove] can remove, the handler raises status 500 with the
    fixed detail ["Erro interno do servidor"], whatever the exception's
    text, and the path names nothing afterwards. *)
Theorem upload_exception_is_generic_500 env dados key w voz u fs1 e fs2 :
  Some key = API_KEY_APP env →
  VOZES !! voice_type dados = Some voz →
  edge_tts_save env (text dados) voz (uuid dados +:+ ".mp3") (files w) =
    (Returned u, fs1) →
  is_Some (fs1 !! (uuid dados +:+ ".mp3")) →
  uploader_upload env (uuid dados +:+ ".mp3") "video" (uuid dados) fs1 =
    (Raised e, fs2) →
  is_Exception e = true →
  is_cloudinary_Error e = false →
  clearable (fs2 !! (uuid dados +:+ ".mp3")) = true →
  (gerar_audio_endpoint env dados key w).1 =
    Raised (HTTPException 500 "Erro interno do servidor") ∧
  files (gerar_audio_endpoint env dados key w).2 !! (uuid dados +:+ ".mp3")
    = None.
Proof.
  intros Hkey Hvoz Hsave Hfile Hup Hexn Hcloud Hclear.
  destruct (try_body_upload_raises env dados _ voz w Hvoz u fs1 e fs2
              Hsave Hfile Hup) as [lines Hbody].
  rewrite endpoint_clears;
    [|done|by rewrite ?elem_of_dom, ?Hvoz|by rewrite Hbody].
  unfold pending_outcome. rewrite Hbody.
  simpl. rewrite Hcloud, Hexn. simpl.
  split; [done|]. apply lookup_delete_eq.
Qed.

(** X3. An exception raised by synthesis that is not an [Exception] (a
    cancellation) matches neither [except] clause.  When what synthesis
    leaves at ["{uuid}.mp3"] is nothing or a file [os.remove] can remove,
    the handler raises that same exception, prints nothing, does not
    invoke the upload, and the [finally] block has still cleared the
    path. *)
Theorem synthesis_cancellation_propagates env dados key w voz e fs1 :
  Some key = API_KEY_APP env →
  VOZES !! voice_type dados = Some voz →
  edge_tts_save env (text dados) voz (uuid dados +:+ ".mp3") (files w) =
    (Raised e, fs1) →
  is_Exception e = false →
  clearable (fs1 !! (uuid dados +:+ ".mp3")) = true →
  (gerar_audio_endpoint env dados key w).1 = Raised e ∧
  calls (gerar_audio_endpoint env dados key w).2 =
    calls w ++ [CallSynthesis (text dados) voz (uuid dados +:+ ".mp3")] ∧
  stdout (gerar_audio_endpoint env dados key w).2 = stdout w ∧
  files (gerar_audio_endpoint env dados key w).2 !! (uuid dados +:+ ".mp3")
    = None.
Proof.
  intros Hkey Hvoz Hsave Hexn Hclear.
  pose proof (try_body_synthesis_raises env dados _ voz w Hvoz e fs1 Hsave)
    as Hbody.
  rewrite endpoint_clears;
    [|done|by rewrite ?elem_of_dom, ?Hvoz|by rewrite Hbody].
  unfold pending_outcome. rewrite Hbody.
  simpl. destruct e; try discriminate. simpl.
  split_and!; [done..|]. apply lookup_delete_eq.
Qed.

(** X4. The same holds for the upload: an exception it raises that is not
    an [Exception] leaves the handler unchanged, and the path is cleared
    all the same, when what the upload leaves there is nothing or a file
    [os.remove] can remove. *)
Theorem upload_cancellation_propagates env dados key w voz u fs1 e fs2 :
  Some key = API_KEY_APP env →
  VOZES !! voice_type dados = Some voz →
  edge_tts_save env (text dados) voz (uuid dados +:+ ".mp3") (files w) =
    (Returned u, fs1) →
  is_Some (fs1 !! (uuid dados +:+ ".mp3")) →
  uploader_upload env (uuid dados +:+ ".mp3") "video" (uuid dados) fs1 =
    (Raised e, fs2) →
  is_Exception e = false →
  clearable (fs2 !! (uuid dados +:+ ".mp3")) = true →
  (gerar_audio_endpoint env dados key w).1 = Raised e ∧
  files (gerar_audio_endpoint env dados key w).2 !! (uuid dados +:+ ".mp3")
    = None.
Proof.
  intros Hkey Hvoz Hsave Hfile Hup Hexn Hclear.
  destruct (try_body_upload_raises env dados _ voz w Hvoz u fs1 e fs2
              Hsave Hfile Hup) as [lines Hbody].
  rewrite endpoint_clears;
    [|done|by rewrite ?elem_of_dom, ?Hvoz|by rewrite Hbody].
  unfold pending_outcome. rewrite Hbody.
  simpl. destruct e; try discriminate. simpl.
  split; [done|]. apply lookup_delete_eq.
Qed.


(** X7. A request turned away by either guard changes nothing: no file is
    removed (a ["{uuid}.mp3"] left on disk stays there), no provider is
    called and nothing is printed. *)
Theorem rejected_request_changes_nothing env dados key w :
  Some key ≠ API_KEY_APP env ∨ voice_type dados ∉ dom VOZES →
  (gerar_audio_endpoint env dados key w).2 = w.
Proof.
  intros Hreject.
  destruct (decide (Some key = API_KEY_APP env)) as [Hkey|Hkey];
    [|by rewrite endpoint_rejects_key].
  destruct Hreject as [Hne|Hvoice]; [done|].
  by rewrite endpoint_rejects_voice.
Qed.


(** X13. When the entry at ["{uuid}.mp3"] at the end of the [try] block is
    one [os.remove] refuses (a directory, a file the process may not
    remove), the [finally] block raises that entry's error in place of
    whatever was pending, a returned URL or an [HTTPException] alike, and
    the entry is still there afterwards. *)
Theorem unremovable_entry_overrides_outcome
    env dados key w st_size error_class error_text :
  Some key = API_KEY_APP env →
  voice_type dados ∈ dom VOZES →
  files (try_body env dados (uuid dados +:+ ".mp3") w).2
    !! (uuid dados +:+ ".mp3") =
    Some (Unremovable st_size error_class error_text) →
  (gerar_audio_endpoint env dados key w).1 =
    Raised (OtherException error_class error_text) ∧
  respond (gerar_audio_endpoint env dados key w).1 = ServerFault ∧
  files (gerar_audio_endpoint env dados key w).2 !! (uuid dados +:+ ".mp3") =
    Some (Unremovable st_size error_class error_text).
Proof.
  intros Hkey Hvoice Hstuck.
  rewrite (endpoint_stuck env dados key w st_size error_class error_text)
    by done.
  simpl. by rewrite pending_files.
Qed.

(** * Beyond the claims: the diagnostic routes *)

(** X9. When reading the SDK configuration raises an [Exception],
    [test_cloudinary] does not fail: it returns an object with status
    ["ERROR"] that carries the exception's text, and changes nothing. *)
Theorem test_cloudinary_error_in_band sdk w e :
  cloudinary_config sdk = Raised e →
  is_Exception e = true →
  test_cloudinary sdk w =
    (Returned (JObj [ ("status", JStr "ERROR");
                      ("error", JStr (exn_str e)) ]), w).
Proof.
  intros Hconfig Hexn.
  unfold test_cloudinary, try_except, try_except_finally, bind, sdk_call, ret.
  rewrite Hconfig. simpl. by rewrite Hexn.
Qed.

(** X10. When reading the configuration or building the sample URL raises
    an [Exception], [debug_cloudinary] does not fail either: it returns an
    object with status ["ERROR"], the exception's text and the name of its
    class. *)
Theorem debug_cloudinary_error_in_band sdk w e :
  cloudinary_config sdk = Raised e ∨
  (∃ config, cloudinary_config sdk = Returned config ∧
             cloudinary_url sdk "sample.jpg" = Raised e) →
  is_Exception e = true →
  debug_cloudinary sdk w =
    (Returned (JObj [ ("status", JStr "ERROR");
                      ("error", JStr (exn_str e));
                      ("type", JStr (exn_type_name e)) ]), w).
Proof.
  intros Hfail Hexn.
  unfold debug_cloudinary, try_except, try_except_finally, bind, sdk_call, ret.
  destruct Hfail as [Hconfig | (config & Hconfig & Hurl)].
  - rewrite Hconfig. simpl. by rewrite Hexn.
  - rewrite Hconfig, Hurl. simpl. by rewrite Hexn.
Qed.

(** X11. [test_cloudinary] does not disclose the API secret: for two
    non-absent secrets of the same length, both empty or both not, and the
    same cloud name and API key, the answers are equal. *)
Theorem test_cloudinary_hides_secret
    cloud key (secret1 secret2 : string) secure1 secure2 url w :
  py_len secret1 = py_len secret2 →
  (secret1 = "" ↔ secret2 = "") →
  test_cloudinary
    (mkSdk (Returned (mkConfig cloud key (Some secret1) secure1)) url) w =
  test_cloudinary
    (mkSdk (Returned (mkConfig cloud key (Some secret2) secure2)) url) w.
Proof.
  intros Hlen Hempty.
  unfold test_cloudinary, try_except, try_except_finally, bind, sdk_call, ret,
    api_secret_length; simpl.
  destruct secret1 as [|a1 rest1], secret2 as [|a2 rest2]; simpl.
  - reflexivity.
  - discriminate (proj1 Hempty eq_refl).
  - discriminate (proj2 Hempty eq_refl).
  - simpl in Hlen. by rewrite Hlen.
Qed.

(** X12. Neither diagnostic route ever raises an [Exception]: whatever the
    SDK does, an exception that leaves [test_cloudinary] or
    [debug_cloudinary] is not an [Exception]. *)
Theorem diagnostics_never_raise_Exception sdk w e :
  (test_cloudinary sdk w).1 = Raised e ∨
  (debug_cloudinary sdk w).1 = Raised e →
  is_Exception e = false.
Proof.
  unfold test_cloudinary, debug_cloudinary, try_except, try_except_finally,
    bind, sdk_call, ret.
  destruct (cloudinary_config sdk) as [config|e0]; simpl.
  - destruct (cloudinary_url sdk "sample.jpg") as [test_url|e1]; simpl.
    + by intros [|].
    + destruct (is_Exception e1) eqn:Hexn; simpl; [by intros [|]|].
      intros [|[= <-]]; done.
  - destruct (is_Exception e0) eqn:Hexn; simpl; [by intros [|]|].
    intros [[= <-]|[= <-]]; done.
Qed.


(** * Concrete runs *)

(** C1, the counterexample: a directory sits at [abc-1.mp3], synthesis
    fails on it, and the [finally] block's [os.remove] fails too: the
    request passed both checks, the handler raises the error of [os.remove]
    and the path still exists. *)
Lemma directory_survives_cleanup :
  Some "secret123" = API_KEY_APP directory_synthesis_env ∧
  voice_type sample_request ∈ dom VOZES ∧
  (gerar_audio_endpoint directory_synthesis_env sample_request
     "secret123" directory_world).1 =
    Raised (OtherException "IsADirectoryError"
              "[Errno 21] Is a directory: 'abc-1.mp3'") ∧
  files (gerar_audio_endpoint directory_synthesis_env sample_request
           "secret123" directory_world).2 !! "abc-1.mp3" ≠ None.
Proof.
  split; [reflexivity|]. split.
  { apply elem_of_dom. eexists. reflexivity. }
  split; [reflexivity|]. vm_compute. discriminate.
Qed.

Lemma temp_file_removed_when_removable_witness :
  Some "secret123" = API_KEY_APP failing_upload_env ∧
  voice_type sample_request ∈ dom VOZES ∧
  files (gerar_audio_endpoint failing_upload_env sample_request
           "secret123" stale_world).2 !! "abc-1.mp3" = None.
Proof.
  assert (Hvoice : voice_type sample_request ∈ dom VOZES).
  { apply elem_of_dom. eexists. reflexivity. }
  split; [reflexivity|]. split; [exact Hvoice|].
  apply (temp_file_removed_when_removable failing_upload_env sample_request
           "secret123" stale_world); [reflexivity | exact Hvoice | reflexivity].
Defined.

Lemma wrong_key_is_401_without_calls_witness :
  Some "letmein" ≠ API_KEY_APP sample_env ∧
  (gerar_audio_endpoint sample_env sample_request "letmein" stale_world).1 =
    Raised (HTTPException 401 "Chave inválida!") ∧
  respond
    (gerar_audio_endpoint sample_env sample_request "letmein" stale_world).1 =
    JsonDetail 401 "Chave inválida!" ∧
  calls (gerar_audio_endpoint sample_env sample_request "letmein" stale_world).2
    = [].
Proof.
  assert (Hkey : Some "letmein" ≠ API_KEY_APP sample_env) by discriminate.
  split; [exact Hkey|].
  apply (wrong_key_is_401_without_calls sample_env sample_request
           "letmein" stale_world Hkey).
Defined.

(** C3, the counterexample: a request for the voice ["robot"] with a wrong
    key is answered with status 401, not 400. *)
Lemma invalid_voice_with_wrong_key_is_401 :
  voice_type robot_request ≠ "male" ∧
  voice_type robot_request ≠ "female" ∧
  (gerar_audio_endpoint sample_env robot_request "letmein" empty_world).1 =
    Raised (HTTPException 401 "Chave inválida!") ∧
  ¬ ∃ detail,
      (gerar_audio_endpoint sample_env robot_request "letmein" empty_world).1 =
        Raised (HTTPException 400 detail).
Proof.
  split; [discriminate|]. split; [discriminate|]. split; [reflexivity|].
  intros [detail Hdetail]. vm_compute in Hdetail. discriminate.
Qed.

Lemma invalid_voice_is_400_without_calls_witness :
  Some "secret123" = API_KEY_APP sample_env ∧
  voice_type robot_request ≠ "male" ∧
  voice_type robot_request ≠ "female" ∧
  (gerar_audio_endpoint sample_env robot_request "secret123" stale_world).1 =
    Raised (HTTPException 400 "Voz inválida. Use 'male' ou 'female'.") ∧
  respond
    (gerar_audio_endpoint sample_env robot_request "secret123" stale_world).1 =
    JsonDetail 400 "Voz inválida. Use 'male' ou 'female'." ∧
  calls
    (gerar_audio_endpoint sample_env robot_request "secret123" stale_world).2
    = [].
Proof.
  assert (Hm : voice_type robot_request ≠ "male") by discriminate.
  assert (Hf : voice_type robot_request ≠ "female") by discriminate.
  split; [reflexivity|]. split; [exact Hm|]. split; [exact Hf|].
  apply (invalid_voice_is_400_without_calls sample_env robot_request
           "secret123" stale_world eq_refl Hm Hf).
Defined.

Lemma wrong_key_wins_over_invalid_voice_witness :
  Some "letmein" ≠ API_KEY_APP sample_env ∧
  voice_type robot_request ≠ "male" ∧
  voice_type robot_request ≠ "female" ∧
  (gerar_audio_endpoint sample_env robot_request "letmein" empty_world).1 =
    Raised (HTTPException 401 "Chave inválida!").
Proof.
  assert (Hkey : Some "letmein" ≠ API_KEY_APP sample_env) by discriminate.
  assert (Hm : voice_type robot_request ≠ "male") by discriminate.
  assert (Hf : voice_type robot_request ≠ "female") by discriminate.
  split; [exact Hkey|]. split; [exact Hm|]. split; [exact Hf|].
  apply (wrong_key_wins_over_invalid_voice sample_env robot_request
           "letmein" empty_world Hkey Hm Hf).
Defined.

Lemma synthesis_gets_registry_voice_witness :
  synthesis_voices
    (calls (gerar_audio_endpoint sample_env male_request
              "secret123" empty_world).2) = ["pt-BR-AntonioNeural"] ∧
  synthesis_voices
    (calls (gerar_audio_endpoint sample_env sample_request
              "secret123" empty_world).2) = ["pt-BR-FranciscaNeural"].
Proof.
  split.
  - apply (synthesis_gets_registry_voice sample_env male_request
             "secret123" empty_world "pt-BR-AntonioNeural" eq_refl).
    left. split; reflexivity.
  - apply (synthesis_gets_registry_voice sample_env sample_request
             "secret123" empty_world "pt-BR-FranciscaNeural" eq_refl).
    right. split; reflexivity.
Defined.

Lemma missing_audio_detail_is_generic_witness :
  edge_tts_save silent_synthesis_env "Olá mundo" "pt-BR-FranciscaNeural"
    "abc-1.mp3" ∅ = (Returned (), ∅) ∧
  (gerar_audio_endpoint silent_synthesis_env sample_request
     "secret123" empty_world).1 =
    Raised (HTTPException 500 "Erro interno do servidor") ∧
  (gerar_audio_endpoint silent_synthesis_env sample_request
     "secret123" empty_world).1 ≠
    Raised (HTTPException 500 "Arquivo de áudio não foi gerado.") ∧
  calls (gerar_audio_endpoint silent_synthesis_env sample_request
           "secret123" empty_world).2 =
    [CallSynthesis "Olá mundo" "pt-BR-FranciscaNeural" "abc-1.mp3"].
Proof.
  split; [reflexivity|].
  apply (missing_audio_detail_is_generic silent_synthesis_env sample_request
           "secret123" empty_world "pt-BR-FranciscaNeural" () ∅);
    reflexivity.
Defined.

(** C7, the counterexample: the upload raises a Cloudinary error while
    [abc-1.mp3] is a file the process cannot remove.  The handler raises the
    [PermissionError] of [os.remove], not an [HTTPException], the client
    gets no detail, and the file is still there. *)
Lemma upload_error_masked_by_cleanup :
  edge_tts_save failing_upload_env "Olá mundo" "pt-BR-FranciscaNeural"
    "abc-1.mp3" (files protected_world) =
    (Returned (), protected_files_written) ∧
  uploader_upload failing_upload_env "abc-1.mp3" "video" "abc-1"
    protected_files_written =
    (Raised (CloudinaryError "AuthorizationRequired" "Invalid Signature"),
     protected_files_written) ∧
  (gerar_audio_endpoint failing_upload_env sample_request
     "secret123" protected_world).1 =
    Raised (OtherException "PermissionError"
              "[Errno 13] Permission denied: 'abc-1.mp3'") ∧
  respond (gerar_audio_endpoint failing_upload_env sample_request
             "secret123" protected_world).1 = ServerFault ∧
  files (gerar_audio_endpoint failing_upload_env sample_request
           "secret123" protected_world).2 !! "abc-1.mp3" ≠ None.
Proof.
  split; [reflexivity|]. split; [reflexivity|]. split; [reflexivity|].
  split; [reflexivity|]. vm_compute. discriminate.
Qed.

Lemma upload_error_is_500_then_file_removed_witness :
  uploader_upload failing_upload_env "abc-1.mp3" "video" "abc-1" sample_files =
    (Raised (CloudinaryError "AuthorizationRequired" "Invalid Signature"),
     sample_files) ∧
  clearable (sample_files !! "abc-1.mp3") = true ∧
  (gerar_audio_endpoint failing_upload_env sample_request
     "secret123" empty_world).1 =
    Raised (HTTPException 500 "Erro no upload: Invalid Signature") ∧
  respond (gerar_audio_endpoint failing_upload_env sample_request
             "secret123" empty_world).1 =
    JsonDetail 500 "Erro no upload: Invalid Signature" ∧
  files (gerar_audio_endpoint failing_upload_env sample_request
           "secret123" empty_world).2 !! "abc-1.mp3" = None.
Proof.
  split; [reflexivity|]. split; [reflexivity|].
  apply (upload_error_is_500_then_file_removed failing_upload_env
           sample_request "secret123" empty_world "pt-BR-FranciscaNeural"
           () sample_files "AuthorizationRequired" "Invalid Signature"
           sample_files);
    [reflexivity | reflexivity | reflexivity
    | eexists; reflexivity | reflexivity | reflexivity].
Defined.

(** C8, the counterexample: the key matches, the voice is valid, synthesis
    writes the file and the upload returns a secure URL, but [abc-1.mp3] is
    a file the process cannot remove: the [finally] block raises and the
    URL is lost. *)
Lemma returned_url_lost_to_cleanup :
  Some "secret123" = API_KEY_APP sample_env ∧
  VOZES !! voice_type sample_request = Some "pt-BR-FranciscaNeural" ∧
  edge_tts_save sample_env "Olá mundo" "pt-BR-FranciscaNeural"
    "abc-1.mp3" (files protected_world) =
    (Returned (), protected_files_written) ∧
  is_Some (protected_files_written !! "abc-1.mp3") ∧
  uploader_upload sample_env "abc-1.mp3" "video" "abc-1"
    protected_files_written =
    (Returned (sample_upload_result "abc-1"), protected_files_written) ∧
  sample_upload_result "abc-1" !! "secure_url" =
    Some (PyStr "https://res.cloudinary.com/demo/video/upload/abc-1.mp3") ∧
  (gerar_audio_endpoint sample_env sample_request
     "secret123" protected_world).1 =
    Raised (OtherException "PermissionError"
              "[Errno 13] Permission denied: 'abc-1.mp3'") ∧
  respond (gerar_audio_endpoint sample_env sample_request
             "secret123" protected_world).1 = ServerFault.
Proof.
  split_and!; try reflexivity. eexists; reflexivity.
Qed.

Lemma success_is_200_when_file_removable_witness :
  Some "secret123" = API_KEY_APP sample_env ∧
  clearable (sample_files !! "abc-1.mp3") = true ∧
  (gerar_audio_endpoint sample_env sample_request "secret123" empty_world).1 =
    Returned
      (PyStr "https://res.cloudinary.com/demo/video/upload/abc-1.mp3") ∧
  respond
    (gerar_audio_endpoint sample_env sample_request "secret123" empty_world).1 =
    PlainText 200 "https://res.cloudinary.com/demo/video/upload/abc-1.mp3".
Proof.
  split; [reflexivity|]. split; [reflexivity|].
  apply (success_is_200_when_file_removable sample_env sample_request
           "secret123" empty_world "pt-BR-FranciscaNeural" () sample_files
           (sample_upload_result "abc-1") sample_files);
    [reflexivity | reflexivity | reflexivity
    | eexists; reflexivity | reflexivity | reflexivity | reflexivity].
Defined.

Lemma no_configured_key_is_always_401_witness :
  API_KEY_APP keyless_env = None ∧
  (gerar_audio_endpoint keyless_env sample_request "secret123" empty_world).1 =
    Raised (HTTPException 401 "Chave inválida!") ∧
  respond
    (gerar_audio_endpoint keyless_env sample_request "secret123" empty_world).1 =
    JsonDetail 401 "Chave inválida!".
Proof.
  split; [reflexivity|].
  apply (no_configured_key_is_always_401 keyless_env sample_request
           "secret123" empty_world eq_refl).
Defined.

(** C10, the counterexample: the upload succeeds with a result that has no
    ["secure_url"], and [abc-1.mp3] is a file the process cannot remove:
    the handler raises the [PermissionError] of [os.remove] instead of
    returning [None]. *)
Lemma returned_None_lost_to_cleanup :
  uploader_upload no_url_env "abc-1.mp3" "video" "abc-1"
    protected_files_written =
    (Returned (<["public_id" := PyStr "abc-1"]> ∅), protected_files_written) ∧
  (<["public_id" := PyStr "abc-1"]> ∅ : gmap string pyval) !! "secure_url" =
    None ∧
  (gerar_audio_endpoint no_url_env sample_request
     "secret123" protected_world).1 =
    Raised (OtherException "PermissionError"
              "[Errno 13] Permission denied: 'abc-1.mp3'") ∧
  (gerar_audio_endpoint no_url_env sample_request
     "secret123" protected_world).1 ≠ Returned PyNone.
Proof.
  split_and!; try reflexivity. vm_compute. discriminate.
Qed.

Lemma missing_secure_url_returns_None_when_file_removable_witness :
  uploader_upload no_url_env "abc-1.mp3" "video" "abc-1" sample_files =
    (Returned (<["public_id" := PyStr "abc-1"]> ∅), sample_files) ∧
  clearable (sample_files !! "abc-1.mp3") = true ∧
  (gerar_audio_endpoint no_url_env sample_request "secret123" empty_world).1 =
    Returned PyNone.
Proof.
  split; [reflexivity|]. split; [reflexivity|].
  apply (missing_secure_url_returns_None_when_file_removable no_url_env
           sample_request "secret123" empty_world "pt-BR-FranciscaNeural" ()
           sample_files (<["public_id" := PyStr "abc-1"]> ∅) sample_files);
    [reflexivity | reflexivity | reflexivity
    | eexists; reflexivity | reflexivity | reflexivity | reflexivity].
Defined.

(** * Concrete runs of the other paths *)


Lemma upload_exception_is_generic_500_witness :
  (gerar_audio_endpoint broken_upload_env sample_request
     "secret123" empty_world).1 =
    Raised (HTTPException 500 "Erro interno do servidor") ∧
  files (gerar_audio_endpoint broken_upload_env sample_request
           "secret123" empty_world).2 !! "abc-1.mp3" = None.
Proof.
  apply (upload_exception_is_generic_500 broken_upload_env sample_request
           "secret123" empty_world "pt-BR-FranciscaNeural" () sample_files
           (OtherException "ConnectionError" "Connection reset") sample_files);
    [reflexivity | reflexivity | reflexivity | eexists; reflexivity
    | reflexivity | reflexivity | reflexivity | reflexivity].
Defined.

Lemma synthesis_cancellation_propagates_witness :
  (gerar_audio_endpoint cancelled_synthesis_env sample_request
     "secret123" stale_world).1 = Raised (NonException "CancelledError" "") ∧
  calls (gerar_audio_endpoint cancelled_synthesis_env sample_request
           "secret123" stale_world).2 =
    [CallSynthesis "Olá mundo" "pt-BR-FranciscaNeural" "abc-1.mp3"] ∧
  stdout (gerar_audio_endpoint cancelled_synthesis_env sample_request
            "secret123" stale_world).2 = [] ∧
  files (gerar_audio_endpoint cancelled_synthesis_env sample_request
           "secret123" stale_world).2 !! "abc-1.mp3" = None.
Proof.
  apply (synthesis_cancellation_propagates cancelled_synthesis_env
           sample_request "secret123" stale_world "pt-BR-FranciscaNeural"
           (NonException "CancelledError" "") (files stale_world));
    reflexivity.
Defined.

Lemma upload_cancellation_propagates_witness :
  (gerar_audio_endpoint cancelled_upload_env sample_request
     "secret123" empty_world).1 =
    Raised (NonException "KeyboardInterrupt" "") ∧
  files (gerar_audio_endpoint cancelled_upload_env sample_request
           "secret123" empty_world).2 !! "abc-1.mp3" = None.
Proof.
  apply (upload_cancellation_propagates cancelled_upload_env sample_request
           "secret123" empty_world "pt-BR-FranciscaNeural" () sample_files
           (NonException "KeyboardInterrupt" "") sample_files);
    [reflexivity | reflexivity | reflexivity | eexists; reflexivity
    | reflexivity | reflexivity | reflexivity].
Defined.


Lemma rejected_request_changes_nothing_witness :
  (gerar_audio_endpoint sample_env sample_request "letmein" stale_world).2 =
    stale_world ∧
  is_Some (files stale_world !! "abc-1.mp3").
Proof.
  split; [|eexists; reflexivity].
  apply (rejected_request_changes_nothing sample_env sample_request
           "letmein" stale_world).
  left. discriminate.
Defined.


Lemma unremovable_entry_overrides_outcome_witness :
  (pending_outcome sample_env sample_request protected_world).1 =
    Returned
      (PyStr "https://res.cloudinary.com/demo/video/upload/abc-1.mp3") ∧
  (gerar_audio_endpoint sample_env sample_request
     "secret123" protected_world).1 =
    Raised (OtherException "PermissionError"
              "[Errno 13] Permission denied: 'abc-1.mp3'") ∧
  respond (gerar_audio_endpoint sample_env sample_request
             "secret123" protected_world).1 = ServerFault ∧
  files (gerar_audio_endpoint sample_env sample_request
           "secret123" protected_world).2 !! "abc-1.mp3" =
    Some (Unremovable 3 "PermissionError"
            "[Errno 13] Permission denied: 'abc-1.mp3'").
Proof.
  split; [reflexivity|].
  apply (unremovable_entry_overrides_outcome sample_env sample_request
           "secret123" protected_world 3 "PermissionError"
           "[Errno 13] Permission denied: 'abc-1.mp3'").
  - reflexivity.
  - apply elem_of_dom. eexists. reflexivity.
  - reflexivity.
Defined.

Lemma test_cloudinary_error_in_band_witness :
  test_cloudinary broken_sdk empty_world =
    (Returned (JObj [ ("status", JStr "ERROR");
                      ("error", JStr "configuration unavailable") ]),
     empty_world).
Proof.
  apply (test_cloudinary_error_in_band broken_sdk empty_world
           (OtherException "RuntimeError" "configuration unavailable"));
    reflexivity.
Defined.

Lemma debug_cloudinary_error_in_band_witness :
  debug_cloudinary unconfigured_sdk empty_world =
    (Returned
       (JObj [ ("status", JStr "ERROR");
               ("error",
                JStr "Must supply cloud_name in tag or in configuration");
               ("type", JStr "ValueError") ]),
     empty_world).
Proof.
  apply (debug_cloudinary_error_in_band unconfigured_sdk empty_world
           (OtherException "ValueError"
              "Must supply cloud_name in tag or in configuration")).
  - right. exists (mkConfig None None None JNull). split; reflexivity.
  - reflexivity.
Defined.

Lemma test_cloudinary_hides_secret_witness :
  test_cloudinary (mkSdk (Returned sample_config) (cloudinary_url sample_sdk))
    empty_world =
  test_cloudinary (mkSdk (Returned rotated_config) (cloudinary_url sample_sdk))
    empty_world.
Proof.
  apply (test_cloudinary_hides_secret (Some "demo") (Some "123456")
           "s3cr3t" "t0ps3c" (JBool true) (JBool true)
           (cloudinary_url sample_sdk) empty_world).
  - reflexivity.
  - split; discriminate.
Defined.

Lemma diagnostics_never_raise_Exception_witness :
  (test_cloudinary cancelled_sdk empty_world).1 =
    Raised (NonException "CancelledError" "") ∧
  is_Exception (NonException "CancelledError" "") = false.
Proof.
  split; [reflexivity|].
  apply (diagnostics_never_raise_Exception cancelled_sdk empty_world
           (NonException "CancelledError" "")).
  left. reflexivity.
Defined.
